(** * codedetector: the heuristic estimation engine of [app.py]

    A shallow embedding of the string classifiers and the performance
    modeller of [src/app.py], and the properties its specification states
    about them.

    Data model.  A Python [str] is a [string] holding the UTF-8 bytes of
    the text.  Every needle that [app.py] searches for or counts is ASCII,
    and an ASCII byte occurs in well-formed UTF-8 only as that very
    character, so searching the bytes finds the code-point matches.
    A Python [dict] with string keys is a [gmap string _]; a Python [int]
    is a [Z]; a Python [float] is a binary64 [spec_float]. *)

From Stdlib Require Import ZArith Ascii Bool Lia List DecimalString.
From Stdlib Require Import Floats.SpecFloat.
From Stdlib Require DecimalFacts DecimalPos DecimalN.
From stdpp Require Import gmap strings list fin_maps.

Local Open Scope Z_scope.

(** ** Python string primitives *)

Module PyStr.

(** [s.startswith(sub)], the test behind every match position. *)
Fixpoint startswith (sub s : string) : bool :=
  match sub, s with
  | EmptyString, _ => true
  | String _ _, EmptyString => false
  | String a sub', String b s' => Ascii.eqb a b && startswith sub' s'
  end.

(** [sub in s]: [sub] matches at some position of [s]. *)
Fixpoint contains (sub s : string) : bool :=
  startswith sub s ||
  match s with
  | EmptyString => false
  | String _ s' => contains sub s'
  end.

(** [s.count(sub)] scans from the left and, after a match, resumes behind
    it: matches do not overlap.  [skip] is the number of positions still
    covered by the last match.  The empty needle matches between all
    characters and at both ends. *)
Fixpoint count_from (sub : string) (skip : nat) (s : string) : nat :=
  match s with
  | EmptyString =>
      match skip with
      | O => if startswith sub s then 1%nat else 0%nat
      | S _ => 0%nat
      end
  | String _ s' =>
      match skip with
      | S k => count_from sub k s'
      | O => if startswith sub s
             then S (count_from sub (String.length sub - 1) s')
             else count_from sub 0 s'
      end
  end.

Definition count (sub s : string) : nat := count_from sub 0 s.

(** [any(k in s for k in ks)] *)
Definition any_in (ks : list string) (s : string) : bool :=
  existsb (fun k => contains k s) ks.

(** The suffix of [s] from position [n] on, [s[n:]]. *)
Fixpoint drop (n : nat) (s : string) : string :=
  match n, s with
  | O, _ => s
  | S _, EmptyString => EmptyString
  | S n', String _ s' => drop n' s'
  end.

(** The number of positions at which [sub] matches [s], overlapping or
    not: the plain reading of "occurrences of the substring". *)
Fixpoint occurrences (sub s : string) : nat :=
  (if startswith sub s then 1 else 0)%nat +
  match s with
  | EmptyString => 0%nat
  | String _ s' => occurrences sub s'
  end.


(** The ASCII part of [str.lower]. *)
Definition ascii_lower (c : ascii) : ascii :=
  let n := nat_of_ascii c in
  if (65 <=? n)%nat && (n <=? 90)%nat then ascii_of_nat (n + 32) else c.

Fixpoint map (f : ascii -> ascii) (s : string) : string :=
  match s with
  | EmptyString => EmptyString
  | String c s' => String (f c) (map f s')
  end.

Fixpoint isascii (s : string) : bool :=
  match s with
  | EmptyString => true
  | String c s' => (nat_of_ascii c <? 128)%nat && isascii s'
  end.

End PyStr.

Import PyStr.

(** ** Python numbers: true division of ints and fixed-point formatting *)

Module PyFloat.

Definition prec : Z := 53.
Definition emax : Z := 1024.

(** [float(z)], exact for [|z| < 2^53]. *)
Definition of_int (z : Z) : spec_float := binary_normalize prec emax z 0 false.

(** [a / b] on ints with [b <> 0].  Below [2^53] CPython converts both
    operands, exactly, and divides them as doubles; the operands of
    [app.py] are constants far below that bound. *)
Definition truediv (a b : Z) : spec_float :=
  SFdiv prec emax (of_int a) (of_int b).

(** The integer nearest to [n / d] for [0 < d], ties to the even one. *)
Definition round_half_even (n d : Z) : Z :=
  let q := n / d in
  match 2 * (n mod d) ?= d with
  | Lt => q
  | Gt => q + 1
  | Eq => if Z.even q then q else q + 1
  end.

(** [m * 2^e] in hundredths, correctly rounded from the exact binary
    value as the [.2f] conversion does. *)
Definition hundredths (m : positive) (e : Z) : Z :=
  if 0 <=? e then Z.pos m * 2 ^ e * 100
  else round_half_even (Z.pos m * 100) (2 ^ (- e)).

Definition dec (n : Z) : string :=
  NilEmpty.string_of_uint (N.to_uint (Z.to_N n)).

(** [q] hundredths written with two digits after the point. *)
Definition fixed2 (q : Z) : string :=
  dec (q / 100) +:+ "." +:+
  (if q mod 100 <? 10 then "0" else "") +:+ dec (q mod 100).

Definition sign (s : bool) : string := if s then "-" else "".

(** [f"{x:.2f}"] *)
Definition format_2f (x : spec_float) : string :=
  match x with
  | S754_zero s => sign s +:+ "0.00"
  | S754_infinity s => sign s +:+ "inf"
  | S754_nan => "nan"
  | S754_finite s m e => sign s +:+ fixed2 (hundredths m e)
  end.

End PyFloat.

Import PyFloat.

(** ** Exceptions, results and early return *)

Inductive exn : Type :=
| ZeroDivisionError
| NameError (name : string)
| KeyError (key : string)
| BadRequestKeyError (key : string)
| TypeError.

(** The outcome of evaluating an expression or calling a function. *)
Inductive res (A : Type) : Type :=
| Val (a : A)
| Exc (e : exn).
Arguments Val {A} a.
Arguments Exc {A} e.

#[global] Instance res_ret : MRet res := @Val.
#[global] Instance res_bind : MBind res := fun A B f m =>
  match m with
  | Val a => f a
  | Exc e => Exc e
  end.

(** The way a statement completes: it falls through to the next one, or it
    leaves the function by [return] or by an exception. *)
Inductive completion (A : Type) : Type :=
| Normal
| Return (v : A)
| Raise (e : exn).
Arguments Normal {A}.
Arguments Return {A} v.
Arguments Raise {A} e.

(** [s1] followed by [s2]: [s2] runs only when [s1] falls through. *)
Definition then_ {A} (s1 s2 : completion A) : completion A :=
  match s1 with
  | Normal => s2
  | _ => s1
  end.
Infix ";;" := then_ (at level 100, right associativity).

(** Calling a function with this body; falling off its end returns
    [None]. *)
Definition call {A} (body : completion A) : res (option A) :=
  match body with
  | Normal => Val None
  | Return v => Val (Some v)
  | Raise e => Exc e
  end.

(** [d[k]] on a value that may be [None]. *)
Definition getitem (d : option (gmap string string)) (k : string) : res string :=
  match d with
  | None => Exc TypeError
  | Some m => match m !! k with
              | Some v => Val v
              | None => Exc (KeyError k)
              end
  end.

(** [a / b] on ints. *)
Definition int_truediv (a b : Z) : res spec_float :=
  if b =? 0 then Exc ZeroDivisionError else Val (truediv a b).

(** ** The functions of [app.py] *)

Section App.

(** [str.lower] is the interpreter's and follows the Unicode tables it
    ships; [app.py] depends on it through [estimate_space_complexity]
    only.  The theorems that need it assume its ASCII part, which is
    fixed: [lower s = PyStr.map ascii_lower s] for an all-ASCII [s]. *)
Variable lower : string -> string.

Definition is_code (text : string) : bool :=
  let symbols := ["def "; "{"; "}"; ";"; "#include"; "public static"; "()"] in
  any_in symbols text.

Definition detect_language (code : string) : string :=
  if contains "def " code then "Python"
  else if contains "#include" code then "C / C++"
  else if contains "public static void main" code then "Java"
  else if contains "function" code then "JavaScript"
  else "Unknown".

Definition estimate_time_complexity (code : string) : string :=
  let loops := (count "for" code + count "while" code)%nat in
  let sorting := any_in ["sort("; "sorted("] code in
  let recursion := (1 <? count "def " code)%nat in
  (* [sorting and loops]: an int is true when it is not zero *)
  if sorting && negb (loops =? 0)%nat then "O(n log n)"
  else if (2 <=? loops)%nat then "O(n²)"
  else if recursion then "O(n)"
  else if (loops =? 1)%nat then "O(n)"
  else "O(1)".

Definition estimate_space_complexity (code : string) : string :=
  if any_in ["list"; "[]"; "{}"; "dict"; "set"] (lower code) then "O(n)"
  else "O(1)".

Definition estimate_compile_time (language : string) : string :=
  if String.eqb language "Python" then "0 ms (interpreted)"
  else if String.eqb language "C / C++" then "40–150 ms"
  else if String.eqb language "Java" then "200–500 ms"
  else "Unknown".

Definition estimate_execution_time (tc language : string) : res string :=
  let n := 100000 in
  let ops :=
    if String.eqb tc "O(1)" then 1
    else if String.eqb tc "O(n)" then n
    else if String.eqb tc "O(n log n)" then n * 17 (* [int] of an int *)
    else if String.eqb tc "O(n²)" then n * n
    else n in
  let ops_per_ms :=
    default 5000000
      (({[ "Python" := 5000000; "Java" := 15000000; "C / C++" := 30000000 ]}
          : gmap string Z) !! language) in
  ms ← int_truediv ops ops_per_ms;
  mret (format_2f ms +:+ " ms (n = 10⁵)").

Definition speed_class (tc : string) : string :=
  if existsb (String.eqb tc) ["O(1)"; "O(log n)"] then "Very Fast ⚡"
  else if String.eqb tc "O(n)" then "Fast"
  else if String.eqb tc "O(n log n)" then "Risky ⚠️"
  else "Slow 🐢".

(** The statements after the first [return] are part of the body as the
    source has them; [exec_time] is bound nowhere, so evaluating it would
    raise [NameError]. *)
Definition platform_runtimes (tc language : string)
  : res (option (gmap string string)) :=
  time ← estimate_execution_time tc language;
  call (
    Return {[ "leetcode" := time;
              "codeforces" := time;
              "hackerrank" := time ]} ;;
    (if String.eqb tc "O(n log n)"
     then Raise (NameError "exec_time")
     else Normal) ;;
    Return {[ "leetcode" := "Likely TLE";
              "codeforces" := "Likely TLE";
              "hackerrank" := "Likely TLE" ]}).

(** What [index] reads of the request. *)
Record request : Type := { method : string; form : gmap string string }.

(** [index] hands [result] to the template; the model returns it. *)
Definition index (req : request) : res (option (gmap string string)) :=
  if String.eqb (method req) "POST" then
    user_input ← match form req !! "code" with
                 | Some v => Val v
                 | None => Exc (BadRequestKeyError "code")
                 end;
    if is_code user_input then
      let language := detect_language user_input in
      let tc := estimate_time_complexity user_input in
      runtimes ← platform_runtimes tc language;
      execution_time ← estimate_execution_time tc language;
      leetcode ← getitem runtimes "leetcode";
      codeforces ← getitem runtimes "codeforces";
      hackerrank ← getitem runtimes "hackerrank";
      mret (Some {[
        "type" := "Code";
        "language" := language;
        "time_complexity" := tc;
        "space_complexity" := estimate_space_complexity user_input;
        "compile_time" := estimate_compile_time language;
        "execution_time" := execution_time;
        "speed" := speed_class tc;
        "leetcode_runtime" := leetcode;
        "codeforces_runtime" := codeforces;
        "hackerrank_runtime" := hackerrank;
        "note" := "All metrics are static estimates based on code structure, not real execution" ]})
    else
      mret (Some {[
        "type" := "Text / Problem Statement";
        "language" := "N/A";
        "time_complexity" := "Paste code to estimate";
        "space_complexity" := "Paste code to estimate";
        "compile_time" := "N/A";
        "execution_time" := "N/A";
        "speed" := "N/A";
        "leetcode_runtime" := "N/A";
        "codeforces_runtime" := "N/A";
        "hackerrank_runtime" := "N/A";
        "note" := "Static performance analysis requires actual source code" ]})
  else mret None.

(** The pipeline on a pasted text: the form posted with it. *)
Definition pipeline (user_input : string) : res (option (gmap string string)) :=
  index {| method := "POST"; form := {[ "code" := user_input ]} |}.

End App.

(** ** What the specification says, in its own words *)

(** "[s] contains [sub]": [sub] sits somewhere inside [s]. *)
Definition substring (sub s : string) : Prop :=
  exists l r, s = l +:+ sub +:+ r.


(** The operation count of a complexity label. *)
Definition spec_ops (tc : string) : Z :=
  if String.eqb tc "O(1)" then 1
  else if String.eqb tc "O(n)" then 100000
  else if String.eqb tc "O(n log n)" then 100000 * 17
  else if String.eqb tc "O(n²)" then 100000 * 100000
  else 100000.

(** The throughput of a language, in operations per millisecond. *)
Definition spec_throughput (language : string) : Z :=
  if String.eqb language "Python" then 5000000
  else if String.eqb language "Java" then 15000000
  else if String.eqb language "C / C++" then 30000000
  else 5000000.

(** The text of the estimate, with the exact quotient rounded to
    hundredths. *)
Definition spec_execution_time (tc language : string) : string :=
  fixed2 (round_half_even (100 * spec_ops tc) (spec_throughput language))
  +:+ " ms (n = 10⁵)".

(** Reading a printed estimate back, digit by digit, independently of how
    it was printed.  [digits_value acc s] is the number written by the
    decimal digits [s] behind the digits already read as [acc]. *)
Definition digit_value (c : ascii) : option Z :=
  let n := nat_of_ascii c in
  if (48 <=? n)%nat && (n <=? 57)%nat then Some (Z.of_nat (n - 48)) else None.

Fixpoint digits_value (acc : Z) (s : string) : option Z :=
  match s with
  | EmptyString => Some acc
  | String c s' =>
      match digit_value c with
      | Some d => digits_value (10 * acc + d) s'
      | None => None
      end
  end.

(** The text before and the text behind the first point. *)
Fixpoint split_point (s : string) : option (string * string) :=
  match s with
  | EmptyString => None
  | String c s' =>
      if Ascii.eqb c "." then Some (EmptyString, s')
      else match split_point s' with
           | Some (a, b) => Some (String c a, b)
           | None => None
           end
  end.

(** An integer part is not empty and starts with "0" only if it is "0". *)
Definition canonical_digits (ip : string) : bool :=
  match ip with
  | EmptyString => false
  | String c rest => negb (Ascii.eqb c "0") || String.eqb rest ""
  end.

(** [read_decimal2 text] is [Some q] when [text] is a decimal numeral with
    exactly two digits behind the point and stands for [q] hundredths. *)
Definition read_decimal2 (text : string) : option Z :=
  match split_point text with
  | Some (ip, fp) =>
      if canonical_digits ip && (String.length fp =? 2)%nat then
        match digits_value 0 ip, digits_value 0 fp with
        | Some a, Some b => Some (100 * a + b)
        | _, _ => None
        end
      else None
  | None => None
  end.

(** The field [k] of a report. *)
Definition field (k : string) (r : res (option (gmap string string))) : res string :=
  r ≫= fun d => getitem d k.

(** The text of the end-to-end example. *)
Definition bubble_sort_input : string :=
  "def bubble_sort(arr):" +:+ String "010" "" +:+
  " for i in range(len(arr)):" +:+ String "010" "" +:+
  " for j in range(len(arr)):" +:+ String "010" "" +:+
  " if arr[j] > arr[j+1]: arr[j], arr[j+1] = arr[j+1], arr[j]".

Local Close Scope Z_scope.

(** ** Lemmas on the string primitives *)

Module PyStrFacts.

(** stdpp keeps [+:+] folded; these are its two equations. *)
Lemma append_nil_l (s : string) : "" +:+ s = s.
Proof. reflexivity. Qed.

Lemma append_cons (c : ascii) (a b : string) :
  String c a +:+ b = String c (a +:+ b).
Proof. reflexivity. Qed.

Lemma append_nil_r (s : string) : s +:+ "" = s.
Proof.
  induction s as [|c s IH]; [reflexivity | now rewrite append_cons, IH].
Qed.

Lemma append_assoc (a b c : string) : (a +:+ b) +:+ c = a +:+ b +:+ c.
Proof.
  induction a as [|x a IH]; [reflexivity | now rewrite !append_cons, IH].
Qed.

Lemma startswith_nil_r (sub : string) :
  startswith sub "" = true -> sub = "".
Proof. destruct sub; simpl; [reflexivity | discriminate]. Qed.

(** A match at the head is a decomposition [s = sub ++ r]. *)
Lemma startswith_spec (sub s : string) :
  startswith sub s = true <-> exists r, s = sub +:+ r.
Proof.
  revert s. induction sub as [|a sub IH]; intros s; simpl.
  - split; [intros _; now exists s | reflexivity].
  - destruct s as [|b s].
    + split; [discriminate | intros [r Hr]; discriminate].
    + rewrite andb_true_iff, Ascii.eqb_eq, IH. split.
      * intros [-> [r ->]]. now exists r.
      * intros [r Hr]. rewrite append_cons in Hr. injection Hr as -> ->.
        split; [reflexivity | now exists r].
Qed.

Lemma contains_cons (sub : string) (c : ascii) (s : string) :
  contains sub (String c s) = startswith sub (String c s) || contains sub s.
Proof. reflexivity. Qed.

Lemma startswith_contains (sub s : string) :
  startswith sub s = true -> contains sub s = true.
Proof. intros H. destruct s; simpl in *; rewrite H; reflexivity. Qed.

(** [contains] decides the substring relation. *)
Lemma contains_spec (sub s : string) :
  contains sub s = true <-> substring sub s.
Proof.
  unfold substring. split.
  - induction s as [|c s IH].
    + simpl. rewrite orb_false_r. intros H%startswith_nil_r. subst.
      now exists "", "".
    + rewrite contains_cons, orb_true_iff. intros [H | H].
      * apply startswith_spec in H as [r Hr]. now exists "", r.
      * destruct (IH H) as (l & r & ->). now exists (String c l), r.
  - intros (l & r & ->). induction l as [|c l IH].
    + apply startswith_contains, startswith_spec. now exists r.
    + rewrite append_cons, contains_cons, IH. apply orb_true_r.
Qed.

Lemma contains_false_spec (sub s : string) :
  contains sub s = false <-> ~ substring sub s.
Proof.
  rewrite <- contains_spec. destruct (contains sub s); split; congruence.
Qed.

(** A text that contains a needle contains every prefix of the needle. *)
Lemma contains_prefix (a b s : string) :
  startswith a b = true -> contains b s = true -> contains a s = true.
Proof.
  rewrite startswith_spec, !contains_spec. intros [t ->] (l & r & ->).
  exists l, (t +:+ r). now rewrite append_assoc.
Qed.

(** *** Counting: [count] against the number of match positions *)

Lemma drop_nil (n : nat) : drop n "" = "".
Proof. destruct n; reflexivity. Qed.





Lemma occurrences_cons (sub : string) (c : ascii) (s : string) :
  occurrences sub (String c s) =
  (if startswith sub (String c s) then 1 else 0) + occurrences sub s.
Proof. reflexivity. Qed.



(** Overlapping matches are where the two differ. *)
Example count_overlapping :
  count "aa" "aaaaa" = 2 /\ occurrences "aa" "aaaaa" = 4.
Proof. split; reflexivity. Qed.

Lemma occurrences_pos (sub s : string) :
  0 < occurrences sub s <-> contains sub s = true.
Proof.
  induction s as [|c s IH].
  - simpl. destruct (startswith sub ""); simpl; split; (lia || congruence).
  - rewrite occurrences_cons, contains_cons, orb_true_iff, <- IH.
    destruct (startswith sub (String c s)); split.
    + auto.
    + lia.
    + lia.
    + intros [H | H]; [discriminate | lia].
Qed.

End PyStrFacts.

Import PyStrFacts.

(** ** The classifier and the language detector *)

Lemma any_in_true (ks : list string) (s : string) :
  any_in ks s = true <-> exists k, In k ks /\ substring k s.
Proof.
  unfold any_in. rewrite existsb_exists.
  split; intros (k & Hk & H); exists k; (split; [exact Hk |]);
    now apply contains_spec.
Qed.

(** C7. [is_code] holds exactly of the texts that contain at least one of
    the seven literal symbols; the empty text and "x = 1" are not code,
    "def f(): pass" is. *)
Theorem is_code_iff_symbol :
  (forall s : string,
      is_code s = true <->
      substring "def " s \/ substring "{" s \/ substring "}" s \/
      substring ";" s \/ substring "#include" s \/
      substring "public static" s \/ substring "()" s) /\
  is_code "" = false /\
  is_code "x = 1" = false /\
  is_code "def f(): pass" = true.
Proof.
  split; [| repeat split; reflexivity].
  intros s. unfold is_code, any_in. simpl existsb.
  rewrite !orb_true_iff, !contains_spec. intuition discriminate.
Qed.

(** C2. [detect_language] answers with the first rule that matches, in the
    order "def ", "#include", "public static void main", "function"; a text
    with both "def " and "function" is "Python", not "JavaScript". *)
Theorem detect_language_first_match (s : string) :
  (substring "def " s -> detect_language s = "Python") /\
  (~ substring "def " s -> substring "#include" s ->
   detect_language s = "C / C++") /\
  (~ substring "def " s -> ~ substring "#include" s ->
   substring "public static void main" s ->
   detect_language s = "Java") /\
  (~ substring "def " s -> ~ substring "#include" s ->
   ~ substring "public static void main" s -> substring "function" s ->
   detect_language s = "JavaScript") /\
  (~ substring "def " s -> ~ substring "#include" s ->
   ~ substring "public static void main" s -> ~ substring "function" s ->
   detect_language s = "Unknown") /\
  (substring "def " s -> substring "function" s ->
   detect_language s = "Python" /\ detect_language s <> "JavaScript").
Proof.
  unfold detect_language. rewrite <- !contains_false_spec, <- !contains_spec.
  repeat match goal with
         | |- _ /\ _ => split
         | |- _ = _ -> _ => let H := fresh in intros H; try rewrite H; simpl
         end;
    congruence.
Qed.

Lemma detect_language_first_match_witness :
  substring "def " "function f() { return 'def ' }" /\
  substring "function" "function f() { return 'def ' }" /\
  detect_language "function f() { return 'def ' }" = "Python" /\
  detect_language "function f() { return 'def ' }" <> "JavaScript".
Proof.
  assert (Hd : substring "def " "function f() { return 'def ' }")
    by (apply contains_spec; vm_compute; reflexivity).
  assert (Hf : substring "function" "function f() { return 'def ' }")
    by (apply contains_spec; vm_compute; reflexivity).
  split; [exact Hd |]. split; [exact Hf |].
  exact (proj2 (proj2 (proj2 (proj2 (proj2
           (detect_language_first_match "function f() { return 'def ' }")))))
           Hd Hf).
Defined.

(** The three languages recognised by "def ", "#include" and
    "public static void main" are recognised on code only; "JavaScript" is
    not: the text "function" is JavaScript and is not code. *)
Lemma detect_language_marks_code :
  (forall s : string,
      detect_language s = "Python" \/ detect_language s = "C / C++" \/
      detect_language s = "Java" ->
      is_code s = true) /\
  detect_language "function" = "JavaScript" /\
  is_code "function" = false.
Proof.
  split; [| split; reflexivity].
  intros s. unfold detect_language, is_code, any_in. simpl existsb.
  destruct (contains "def " s) eqn:Hdef; [reflexivity |].
  destruct (contains "#include" s) eqn:Hinc; [intros _; now rewrite !orb_true_r |].
  destruct (contains "public static void main" s) eqn:Hjava.
  - intros _.
    rewrite (contains_prefix "public static" "public static void main" s eq_refl Hjava).
    now rewrite !orb_true_r.
  - destruct (contains "function" s); intros [H | [H | H]]; discriminate.
Qed.

(** ** The time estimator *)


Example time_sort_and_for :
  estimate_time_complexity "for x in xs: ys.sort()" = "O(n log n)".
Proof. reflexivity. Qed.

Example time_two_while :
  estimate_time_complexity "while a: while b: pass" = "O(n²)".
Proof. reflexivity. Qed.

Example time_two_def :
  estimate_time_complexity "def f(): pass; def g(): pass" = "O(n)".
Proof. reflexivity. Qed.

Example time_nothing : estimate_time_complexity "x = 1" = "O(1)".
Proof. reflexivity. Qed.

Lemma estimate_time_complexity_range (s : string) :
  In (estimate_time_complexity s) ["O(1)"; "O(n)"; "O(n log n)"; "O(n²)"].
Proof.
  unfold estimate_time_complexity.
  repeat match goal with
         | |- context [if ?b then _ else _] => destruct b
         end; simpl; auto.
Qed.

(** ** The speed class *)

(** C6, as the code has it.  The labels carry their pictographs: "O(1)" and
    "O(log n)" give "Very Fast ⚡", "O(n)" gives "Fast", "O(n log n)" gives
    "Risky ⚠️" and everything else "Slow 🐢"; the time estimator never
    answers "O(log n)". *)
Theorem speed_class_labels (tc : string) :
  (tc = "O(1)" \/ tc = "O(log n)" -> speed_class tc = "Very Fast ⚡") /\
  (tc = "O(n)" -> speed_class tc = "Fast") /\
  (tc = "O(n log n)" -> speed_class tc = "Risky ⚠️") /\
  (tc <> "O(1)" -> tc <> "O(log n)" -> tc <> "O(n)" -> tc <> "O(n log n)" ->
   speed_class tc = "Slow 🐢") /\
  (forall s : string, estimate_time_complexity s <> "O(log n)").
Proof.
  repeat split.
  - intros [-> | ->]; reflexivity.
  - intros ->; reflexivity.
  - intros ->; reflexivity.
  - intros H1 H2 H3 H4. unfold speed_class. simpl existsb.
    apply String.eqb_neq in H1, H2, H3, H4. now rewrite H1, H2, H3, H4.
  - intros s H. pose proof (estimate_time_complexity_range s) as Hr.
    rewrite H in Hr. simpl in Hr. intuition discriminate.
Qed.

Lemma speed_class_labels_witness :
  speed_class "O(log n)" = "Very Fast ⚡" /\
  speed_class "O(n)" = "Fast" /\
  speed_class "O(n log n)" = "Risky ⚠️" /\
  speed_class "O(n²)" = "Slow 🐢".
Proof.
  split; [| split; [| split]].
  - apply (proj1 (speed_class_labels "O(log n)")). right; reflexivity.
  - apply (proj1 (proj2 (speed_class_labels "O(n)"))). reflexivity.
  - apply (proj1 (proj2 (proj2 (speed_class_labels "O(n log n)")))). reflexivity.
  - apply (proj1 (proj2 (proj2 (proj2 (speed_class_labels "O(n²)")))));
      discriminate.
Defined.

(** C6 as stated fails: the label of "O(1)" is not the bare "Very Fast". *)
Lemma speed_class_label_not_bare :
  speed_class "O(1)" = "Very Fast ⚡" /\ speed_class "O(1)" <> "Very Fast".
Proof. split; [reflexivity | discriminate]. Qed.

(** ** The execution-time model *)

Local Open Scope Z_scope.

(** Rounding to the nearest integer stays within half a unit. *)
Lemma round_half_even_nearest (n d : Z) :
  0 < d -> 2 * Z.abs (n - round_half_even n d * d) <= d.
Proof.
  intros Hd. unfold round_half_even.
  pose proof (Z.div_mod n d ltac:(lia)) as Hn.
  pose proof (Z.mod_pos_bound n d Hd) as Hr.
  set (q := n / d) in *. set (r := n mod d) in *. clearbody q r.
  assert (H0 : n - q * d = r) by lia.
  assert (H1 : n - (q + 1) * d = r - d) by lia.
  destruct (Z.compare_spec (2 * r) d) as [Hc | Hc | Hc];
    try destruct (Z.even q); rewrite ?H0, ?H1; lia.
Qed.

Lemma spec_ops_cases (tc : string) :
  spec_ops tc = 1 \/ spec_ops tc = 100000 \/
  spec_ops tc = 1700000 \/ spec_ops tc = 10000000000.
Proof.
  unfold spec_ops.
  repeat match goal with
         | |- context [if ?b then _ else _] => destruct b
         end; simpl; auto.
Qed.

Lemma spec_throughput_cases (language : string) :
  spec_throughput language = 5000000 \/ spec_throughput language = 15000000 \/
  spec_throughput language = 30000000.
Proof.
  unfold spec_throughput.
  repeat match goal with
         | |- context [if ?b then _ else _] => destruct b
         end; auto.
Qed.

(** One goal per entry of the two tables. *)
Ltac by_tables tc language :=
  let E := fresh "E" in
  let F := fresh "F" in
  destruct (spec_ops_cases tc) as [E | [E | [E | E]]];
  destruct (spec_throughput_cases language) as [F | [F | F]];
  rewrite E, F.

(** The [get] with default on the throughput table. *)
Lemma ops_per_ms_get (language : string) :
  default 5000000
    (({[ "Python" := 5000000; "Java" := 15000000; "C / C++" := 30000000 ]}
        : gmap string Z) !! language)
  = spec_throughput language.
Proof.
  unfold spec_throughput.
  destruct (String.eqb_spec language "Python") as [-> | H1]; [reflexivity |].
  destruct (String.eqb_spec language "Java") as [-> | H2]; [reflexivity |].
  destruct (String.eqb_spec language "C / C++") as [-> | H3]; [reflexivity |].
  rewrite !lookup_insert_ne, lookup_singleton_ne by congruence. reflexivity.
Qed.

(** The division never fails: no throughput is zero. *)
Lemma estimate_execution_time_float (tc language : string) :
  estimate_execution_time tc language =
  Val (format_2f (truediv (spec_ops tc) (spec_throughput language))
       +:+ " ms (n = 10⁵)").
Proof.
  unfold estimate_execution_time. cbv zeta. rewrite ops_per_ms_get.
  fold (spec_ops tc). unfold int_truediv.
  destruct (spec_throughput_cases language) as [E | [E | E]]; rewrite E;
    reflexivity.
Qed.

Lemma estimate_execution_time_text (tc language : string) :
  estimate_execution_time tc language = Val (spec_execution_time tc language).
Proof.
  rewrite estimate_execution_time_float. unfold spec_execution_time.
  by_tables tc language; vm_compute; reflexivity.
Qed.

(** *** The reader of two-decimal numerals *)

Lemma split_point_spec (s a b : string) :
  split_point s = Some (a, b) -> s = a +:+ "." +:+ b.
Proof.
  revert a b. induction s as [|c s IH]; intros a b; simpl; [discriminate |].
  destruct (Ascii.eqb_spec c ".") as [-> | Hc].
  - intros [= <- <-]. reflexivity.
  - destruct (split_point s) as [[a' b'] |]; [| discriminate].
    intros [= <- <-]. now rewrite append_cons, <- (IH a' b' eq_refl).
Qed.

Lemma digits_value_digits (s : string) (acc v : Z) :
  digits_value acc s = Some v ->
  forall l c r, s = l +:+ String c r -> (48 <= nat_of_ascii c <= 57)%nat.
Proof.
  revert acc. induction s as [|x s IH]; intros acc H l c r Hs.
  - destruct l; discriminate.
  - simpl in H. destruct (digit_value x) as [d |] eqn:Hd; [| discriminate].
    destruct l as [|y l].
    + rewrite append_nil_l in Hs. injection Hs as <- _.
      unfold digit_value in Hd.
      destruct (Nat.leb_spec 48 (nat_of_ascii x));
        destruct (Nat.leb_spec (nat_of_ascii x) 57);
        simpl in Hd; try discriminate; lia.
    + rewrite append_cons in Hs. injection Hs as _ Hs.
      exact (IH _ H l c r Hs).
Qed.

(** What [read_decimal2] accepts has an integer part, a point and exactly
    two digits. *)
Lemma read_decimal2_shape (text : string) (q : Z) :
  read_decimal2 text = Some q ->
  exists (ip : string) (d1 d2 : ascii) (a b : Z),
    text = ip +:+ "." +:+ String d1 (String d2 "") /\
    ip <> "" /\
    digits_value 0 ip = Some a /\
    digits_value 0 (String d1 (String d2 "")) = Some b /\
    q = 100 * a + b.
Proof.
  unfold read_decimal2.
  destruct (split_point text) as [[ip fp] |] eqn:Hsp; [| discriminate].
  apply split_point_spec in Hsp.
  destruct (canonical_digits ip) eqn:Hc; [| discriminate].
  destruct fp as [|d1 [|d2 [|d3 fp]]]; try discriminate.
  simpl andb. cbv iota.
  destruct (digits_value 0 ip) as [a |] eqn:Ha; [| discriminate].
  destruct (digits_value 0 (String d1 (String d2 ""))) as [b |] eqn:Hb;
    [| discriminate].
  intros [= <-]. exists ip, d1, d2, a, b.
  repeat split; try assumption. intros ->. discriminate.
Qed.

Example read_decimal2_examples :
  read_decimal2 "333.33" = Some 33333 /\
  read_decimal2 "0.02" = Some 2 /\
  read_decimal2 "2000.00" = Some 200000 /\
  read_decimal2 "0.2" = None /\
  read_decimal2 "2000.0" = None /\
  read_decimal2 "0.020" = None /\
  read_decimal2 "00.02" = None /\
  read_decimal2 ".02" = None /\
  read_decimal2 "2" = None /\
  read_decimal2 "0,02" = None /\
  read_decimal2 "0.0x" = None.
Proof. repeat split. Qed.


(** *** [fixed2] against the reader *)

(** The number written by a [Decimal.uint], most significant digit
    first. *)
Lemma digits_value_uint_acc (d : Decimal.uint) (acc : positive) :
  digits_value (Z.pos acc) (NilEmpty.string_of_uint d) =
  Some (Z.pos (Pos.of_uint_acc d acc)).
Proof.
  revert acc. induction d; intros acc; simpl; [reflexivity | ..];
    match goal with
    | |- digits_value ?z _ = Some (Z.pos (Pos.of_uint_acc _ ?p)) =>
        replace z with (Z.pos p) by lia; apply IHd
    end.
Qed.

Lemma digits_value_uint (d : Decimal.uint) :
  digits_value 0 (NilEmpty.string_of_uint d) = Some (Z.of_N (Pos.of_uint d)).
Proof.
  induction d; simpl; try exact IHd; try reflexivity;
    match goal with
    | |- digits_value ?z _ = Some (Z.pos (Pos.of_uint_acc _ ?p)) =>
        change z with (Z.pos p); apply digits_value_uint_acc
    end.
Qed.

Lemma digits_value_dec (n : Z) : 0 <= n -> digits_value 0 (dec n) = Some n.
Proof.
  intros Hn. unfold dec. rewrite digits_value_uint.
  change (Pos.of_uint (N.to_uint (Z.to_N n)))
    with (N.of_uint (N.to_uint (Z.to_N n))).
  rewrite DecimalN.Unsigned.of_to. f_equal. lia.
Qed.

Lemma nzhead_not_D0 (u d : Decimal.uint) : Decimal.nzhead u <> Decimal.D0 d.
Proof. induction u; simpl; try discriminate. exact IHu. Qed.

Lemma unorm_D0 (u d : Decimal.uint) :
  Decimal.unorm u = Decimal.D0 d -> d = Decimal.Nil.
Proof.
  unfold Decimal.unorm. destruct (Decimal.nzhead u) eqn:H;
    try discriminate.
  - intros [= <-]. reflexivity.
  - now apply nzhead_not_D0 in H.
Qed.

Lemma canonical_digits_dec (n : Z) : canonical_digits (dec n) = true.
Proof.
  unfold dec.
  assert (Hu : N.to_uint (Z.to_N n) = Decimal.unorm (N.to_uint (Z.to_N n))).
  { rewrite <- (DecimalN.Unsigned.of_to (Z.to_N n)) at 1.
    apply DecimalN.Unsigned.to_of. }
  destruct (N.to_uint (Z.to_N n)) eqn:E; try reflexivity.
  - symmetry in Hu. unfold Decimal.unorm in Hu. simpl in Hu. discriminate.
  - symmetry in Hu. apply unorm_D0 in Hu. subst. reflexivity.
Qed.

(** Digits hold no point: the split is at the point behind them. *)
Lemma split_point_digits (s r : string) (acc v : Z) :
  digits_value acc s = Some v ->
  split_point (s +:+ "." +:+ r) = Some (s, r).
Proof.
  revert acc. induction s as [|c s IH]; intros acc H; [reflexivity |].
  rewrite append_cons. simpl in *.
  destruct (digit_value c) as [d |] eqn:Hd; [| discriminate].
  destruct (Ascii.eqb_spec c ".") as [-> | _]; [discriminate |].
  now rewrite (IH _ H).
Qed.

(** The two digits behind the point. *)
Lemma fraction_digits (b : Z) :
  0 <= b < 100 ->
  String.length ((if b <? 10 then "0" else "") +:+ dec b) = 2%nat /\
  digits_value 0 ((if b <? 10 then "0" else "") +:+ dec b) = Some b.
Proof.
  intros Hb.
  assert (Hall : forallb
            (fun k : nat =>
               let b := Z.of_nat k in
               let t := (if b <? 10 then "0" else "") +:+ dec b in
               (String.length t =? 2)%nat &&
               match digits_value 0 t with
               | Some v => v =? b
               | None => false
               end) (seq 0 100) = true) by (vm_compute; reflexivity).
  rewrite forallb_forall in Hall.
  specialize (Hall (Z.to_nat b)). rewrite Z2Nat.id in Hall by lia.
  cbv zeta in Hall.
  assert (Hin : In (Z.to_nat b) (seq 0 100)) by (apply in_seq; lia).
  apply Hall in Hin. apply andb_true_iff in Hin as [Hlen Hval].
  split; [now apply Nat.eqb_eq |].
  destruct (digits_value 0 _) as [v |]; [| discriminate].
  apply Z.eqb_eq in Hval. now subst.
Qed.

(** [fixed2] prints what the reader reads: every count of hundredths
    comes back from its text. *)
Lemma read_decimal2_fixed2 (q : Z) :
  0 <= q -> read_decimal2 (fixed2 q) = Some q.
Proof.
  intros Hq. unfold read_decimal2, fixed2.
  assert (Hi : 0 <= q / 100) by (apply Z.div_pos; lia).
  assert (Hf : 0 <= q mod 100 < 100) by (apply Z.mod_pos_bound; lia).
  rewrite (split_point_digits _ _ 0 (q / 100) (digits_value_dec _ Hi)).
  rewrite canonical_digits_dec, digits_value_dec by exact Hi.
  destruct (fraction_digits _ Hf) as [Hlen Hval].
  rewrite Hlen, Hval. simpl. f_equal.
  pose proof (Z.div_mod q 100 ltac:(lia)). lia.
Qed.

(** The twelve estimates, one per entry of the two tables. *)
Lemma estimate_execution_time_table :
  estimate_execution_time "O(1)" "Python" = Val "0.00 ms (n = 10⁵)" /\
  estimate_execution_time "O(1)" "Java" = Val "0.00 ms (n = 10⁵)" /\
  estimate_execution_time "O(1)" "C / C++" = Val "0.00 ms (n = 10⁵)" /\
  estimate_execution_time "O(n)" "Python" = Val "0.02 ms (n = 10⁵)" /\
  estimate_execution_time "O(n)" "Java" = Val "0.01 ms (n = 10⁵)" /\
  estimate_execution_time "O(n)" "C / C++" = Val "0.00 ms (n = 10⁵)" /\
  estimate_execution_time "O(n log n)" "Python" = Val "0.34 ms (n = 10⁵)" /\
  estimate_execution_time "O(n log n)" "Java" = Val "0.11 ms (n = 10⁵)" /\
  estimate_execution_time "O(n log n)" "C / C++" = Val "0.06 ms (n = 10⁵)" /\
  estimate_execution_time "O(n²)" "Python" = Val "2000.00 ms (n = 10⁵)" /\
  estimate_execution_time "O(n²)" "Java" = Val "666.67 ms (n = 10⁵)" /\
  estimate_execution_time "O(n²)" "C / C++" = Val "333.33 ms (n = 10⁵)".
Proof. repeat split. Qed.

(** C4. The estimate is the operation count of the class divided by the
    throughput of the language, written with exactly two decimals and the
    suffix " ms (n = 10⁵)": the double quotient prints as a numeral with
    two digits behind the point which, read back digit by digit, is the
    hundredths nearest to the exact quotient.  "O(n²)" in "C / C++" takes
    "333.33 ms (n = 10⁵)". *)
Theorem estimate_execution_time_quotient (tc language : string) :
  estimate_execution_time tc language =
    Val (format_2f (truediv (spec_ops tc) (spec_throughput language))
         +:+ " ms (n = 10⁵)") /\
  estimate_execution_time tc language =
    Val (fixed2 (round_half_even (100 * spec_ops tc) (spec_throughput language))
         +:+ " ms (n = 10⁵)") /\
  2 * Z.abs (100 * spec_ops tc
             - round_half_even (100 * spec_ops tc) (spec_throughput language)
               * spec_throughput language)
    < spec_throughput language /\
  estimate_execution_time "O(n²)" "C / C++" = Val "333.33 ms (n = 10⁵)" /\
  (exists (text : string) (q : Z),
      estimate_execution_time tc language = Val (text +:+ " ms (n = 10⁵)") /\
      read_decimal2 text = Some q /\
      2 * Z.abs (100 * spec_ops tc - q * spec_throughput language)
        < spec_throughput language).
Proof.
  split; [apply estimate_execution_time_float |].
  split; [apply estimate_execution_time_text |].
  split; [by_tables tc language; vm_compute; reflexivity |].
  split; [reflexivity |].
  exists (fixed2 (round_half_even (100 * spec_ops tc)
                                  (spec_throughput language))),
    (round_half_even (100 * spec_ops tc) (spec_throughput language)).
  split; [apply estimate_execution_time_text |].
  by_tables tc language; vm_compute; split; reflexivity.
Qed.

Local Close Scope Z_scope.

(** ** The platform runtimes *)

(** Whatever follows a [return] does not run. *)
Lemma call_return_first {A} (v : A) (rest : completion A) :
  call (Return v ;; rest) = Val (Some v).
Proof. reflexivity. Qed.

Lemma platform_runtimes_value (tc language : string) :
  platform_runtimes tc language =
  Val (Some {[ "leetcode" := spec_execution_time tc language;
               "codeforces" := spec_execution_time tc language;
               "hackerrank" := spec_execution_time tc language ]}).
Proof.
  unfold platform_runtimes. rewrite estimate_execution_time_text.
  reflexivity.
Qed.

(** No estimate reads as the text of the branches behind the [return]. *)
Lemma spec_execution_time_not_TLE (tc language : string) :
  spec_execution_time tc language <> "Likely TLE".
Proof.
  unfold spec_execution_time.
  by_tables tc language; vm_compute; discriminate.
Qed.

(** C5. [platform_runtimes] returns the dict of its first [return]: the
    three keys "leetcode", "codeforces" and "hackerrank", each with the
    string of [estimate_execution_time]; the statements behind that
    [return] never run: neither their [NameError] nor their "Likely TLE"
    dict is ever the outcome. *)
Theorem platform_runtimes_identical (tc language : string) :
  exists (time : string) (d : gmap string string),
    estimate_execution_time tc language = Val time /\
    platform_runtimes tc language = Val (Some d) /\
    d = {[ "leetcode" := time; "codeforces" := time; "hackerrank" := time ]} /\
    d !! "leetcode" = Some time /\
    d !! "codeforces" = Some time /\
    d !! "hackerrank" = Some time /\
    dom d = {[ "leetcode"; "codeforces"; "hackerrank" ]} /\
    d <> {[ "leetcode" := "Likely TLE"; "codeforces" := "Likely TLE";
            "hackerrank" := "Likely TLE" ]} /\
    platform_runtimes tc language <> Exc (NameError "exec_time").
Proof.
  exists (spec_execution_time tc language). eexists.
  split; [apply estimate_execution_time_text |].
  split; [apply platform_runtimes_value |].
  split; [reflexivity |].
  split; [reflexivity |].
  split; [reflexivity |].
  split; [reflexivity |].
  split; [| split].
  - rewrite !dom_insert_L, dom_singleton_L. set_solver.
  - intros H. apply (f_equal (fun m => m !! "leetcode")) in H.
    rewrite !lookup_insert_eq in H. injection H as H.
    now apply spec_execution_time_not_TLE in H.
  - rewrite platform_runtimes_value. discriminate.
Qed.

(** ** The space estimator and the pipeline *)

Lemma ascii_lower_idempotent (c : ascii) :
  ascii_lower (ascii_lower c) = ascii_lower c.
Proof. destruct c as [[] [] [] [] [] [] [] []]; reflexivity. Qed.

Lemma ascii_lower_isascii (c : ascii) :
  (nat_of_ascii (ascii_lower c) <? 128) = (nat_of_ascii c <? 128).
Proof. destruct c as [[] [] [] [] [] [] [] []]; reflexivity. Qed.

Lemma map_ascii_lower_idempotent (s : string) :
  PyStr.map ascii_lower (PyStr.map ascii_lower s) = PyStr.map ascii_lower s.
Proof.
  induction s as [|c s IH]; simpl; [reflexivity |].
  now rewrite ascii_lower_idempotent, IH.
Qed.

Lemma isascii_map_ascii_lower (s : string) :
  isascii (PyStr.map ascii_lower s) = isascii s.
Proof.
  induction s as [|c s IH]; simpl; [reflexivity |].
  now rewrite ascii_lower_isascii, IH.
Qed.

Section Lower.

Variable lower : string -> string.
Hypothesis lower_ascii :
  forall s, isascii s = true -> lower s = PyStr.map ascii_lower s.

(** C8. The space class is "O(n)" exactly when the lowercased text contains
    "list", "[]", "{}", "dict" or "set", and "O(1)" otherwise; case does
    not matter: "DICT" and "data = []" are "O(n)", "x = 1" is "O(1)". *)
Theorem estimate_space_complexity_iff :
  (forall s : string,
      estimate_space_complexity lower s = "O(n)" <->
      substring "list" (lower s) \/ substring "[]" (lower s) \/
      substring "{}" (lower s) \/ substring "dict" (lower s) \/
      substring "set" (lower s)) /\
  (forall s : string,
      estimate_space_complexity lower s <> "O(n)" ->
      estimate_space_complexity lower s = "O(1)") /\
  (forall s : string,
      isascii s = true ->
      estimate_space_complexity lower (PyStr.map ascii_lower s) =
      estimate_space_complexity lower s) /\
  estimate_space_complexity lower "DICT" = "O(n)" /\
  estimate_space_complexity lower "data = []" = "O(n)" /\
  estimate_space_complexity lower "x = 1" = "O(1)".
Proof.
  split; [| split; [| split]].
  - intros s. unfold estimate_space_complexity, any_in. simpl existsb.
    rewrite <- !contains_spec.
    destruct (contains "list" (lower s)), (contains "[]" (lower s)),
      (contains "{}" (lower s)), (contains "dict" (lower s)),
      (contains "set" (lower s)); simpl; intuition discriminate.
  - intros s. unfold estimate_space_complexity.
    destruct (any_in _ (lower s)); congruence.
  - intros s Hs. unfold estimate_space_complexity.
    rewrite (lower_ascii s Hs), lower_ascii
      by now rewrite isascii_map_ascii_lower.
    now rewrite map_ascii_lower_idempotent.
  - unfold estimate_space_complexity.
    rewrite !lower_ascii by reflexivity. repeat split.
Qed.

(** Without a submission there is no report. *)
Lemma index_get (f : gmap string string) :
  index lower {| method := "GET"; form := f |} = Val None.
Proof. reflexivity. Qed.

(** The report of the code branch, field by field. *)
Lemma pipeline_code (s : string) :
  is_code s = true ->
  pipeline lower s =
  Val (Some {[
    "type" := "Code";
    "language" := detect_language s;
    "time_complexity" := estimate_time_complexity s;
    "space_complexity" := estimate_space_complexity lower s;
    "compile_time" := estimate_compile_time (detect_language s);
    "execution_time" :=
      spec_execution_time (estimate_time_complexity s) (detect_language s);
    "speed" := speed_class (estimate_time_complexity s);
    "leetcode_runtime" :=
      spec_execution_time (estimate_time_complexity s) (detect_language s);
    "codeforces_runtime" :=
      spec_execution_time (estimate_time_complexity s) (detect_language s);
    "hackerrank_runtime" :=
      spec_execution_time (estimate_time_complexity s) (detect_language s);
    "note" := "All metrics are static estimates based on code structure, not real execution" ]}).
Proof.
  intros Hs. unfold pipeline, index. cbn [method form].
  rewrite String.eqb_refl, lookup_singleton_eq.
  cbn [mbind res_bind]. rewrite Hs.
  rewrite platform_runtimes_value, estimate_execution_time_text.
  reflexivity.
Qed.

Lemma pipeline_text (s : string) :
  is_code s = false ->
  pipeline lower s =
  Val (Some {[
    "type" := "Text / Problem Statement";
    "language" := "N/A";
    "time_complexity" := "Paste code to estimate";
    "space_complexity" := "Paste code to estimate";
    "compile_time" := "N/A";
    "execution_time" := "N/A";
    "speed" := "N/A";
    "leetcode_runtime" := "N/A";
    "codeforces_runtime" := "N/A";
    "hackerrank_runtime" := "N/A";
    "note" := "Static performance analysis requires actual source code" ]}).
Proof.
  intros Hs. unfold pipeline, index. cbn [method form].
  rewrite String.eqb_refl, lookup_singleton_eq.
  cbn [mbind res_bind]. rewrite Hs. reflexivity.
Qed.

(** C3, as the code has it.  The bubble-sort text is code in "Python" with
    space class "O(1)", and its time class is "O(n log n)": the name
    "bubble_sort(" contains "sort(" and there are two "for". *)
Theorem bubble_sort_report :
  is_code bubble_sort_input = true /\
  field "language" (pipeline lower bubble_sort_input) = Val "Python" /\
  field "time_complexity" (pipeline lower bubble_sort_input) = Val "O(n log n)" /\
  field "space_complexity" (pipeline lower bubble_sort_input) = Val "O(1)" /\
  count "for" bubble_sort_input = 2 /\
  count "while" bubble_sort_input = 0 /\
  substring "sort(" bubble_sort_input /\
  any_in ["list"; "[]"; "{}"; "dict"; "set"] (lower bubble_sort_input) = false.
Proof.
  assert (Hcode : is_code bubble_sort_input = true) by reflexivity.
  assert (Hlow : lower bubble_sort_input = bubble_sort_input)
    by (rewrite lower_ascii; reflexivity).
  assert (Hspace : estimate_space_complexity lower bubble_sort_input = "O(1)")
    by (unfold estimate_space_complexity; rewrite Hlow; reflexivity).
  rewrite (pipeline_code bubble_sort_input Hcode), Hspace, Hlow.
  repeat split; try reflexivity.
  apply contains_spec. reflexivity.
Qed.

(** C9. A text that is not code gets the fixed report: the type
    "Text / Problem Statement", "Paste code to estimate" for both
    complexities and "N/A" for the language, the times, the speed and the
    three platform runtimes; the report is that of any other such text. *)
Theorem non_code_report (s : string) :
  is_code s = false ->
  pipeline lower s =
    Val (Some {[
      "type" := "Text / Problem Statement";
      "language" := "N/A";
      "time_complexity" := "Paste code to estimate";
      "space_complexity" := "Paste code to estimate";
      "compile_time" := "N/A";
      "execution_time" := "N/A";
      "speed" := "N/A";
      "leetcode_runtime" := "N/A";
      "codeforces_runtime" := "N/A";
      "hackerrank_runtime" := "N/A";
      "note" := "Static performance analysis requires actual source code" ]}) /\
  field "type" (pipeline lower s) = Val "Text / Problem Statement" /\
  field "time_complexity" (pipeline lower s) = Val "Paste code to estimate" /\
  field "space_complexity" (pipeline lower s) = Val "Paste code to estimate" /\
  field "language" (pipeline lower s) = Val "N/A" /\
  field "compile_time" (pipeline lower s) = Val "N/A" /\
  field "execution_time" (pipeline lower s) = Val "N/A" /\
  field "speed" (pipeline lower s) = Val "N/A" /\
  field "leetcode_runtime" (pipeline lower s) = Val "N/A" /\
  field "codeforces_runtime" (pipeline lower s) = Val "N/A" /\
  field "hackerrank_runtime" (pipeline lower s) = Val "N/A" /\
  pipeline lower s = pipeline lower "".
Proof.
  intros Hs. rewrite (pipeline_text s Hs), (pipeline_text "" eq_refl).
  repeat split.
Qed.

End Lower.

(** ** Instances at the ASCII lower-casing *)

Lemma estimate_space_complexity_iff_witness :
  (forall s, isascii s = true ->
             PyStr.map ascii_lower s = PyStr.map ascii_lower s) /\
  estimate_space_complexity (PyStr.map ascii_lower) "DICT" = "O(n)" /\
  estimate_space_complexity (PyStr.map ascii_lower) "data = []" = "O(n)" /\
  estimate_space_complexity (PyStr.map ascii_lower) "x = 1" = "O(1)".
Proof.
  split; [reflexivity |].
  apply (estimate_space_complexity_iff (PyStr.map ascii_lower)
           (fun s _ => eq_refl)).
Defined.

Lemma bubble_sort_report_witness :
  (forall s, isascii s = true ->
             PyStr.map ascii_lower s = PyStr.map ascii_lower s) /\
  field "language" (pipeline (PyStr.map ascii_lower) bubble_sort_input)
    = Val "Python" /\
  field "time_complexity" (pipeline (PyStr.map ascii_lower) bubble_sort_input)
    = Val "O(n log n)" /\
  field "space_complexity" (pipeline (PyStr.map ascii_lower) bubble_sort_input)
    = Val "O(1)".
Proof.
  split; [reflexivity |].
  pose proof (bubble_sort_report (PyStr.map ascii_lower) (fun s _ => eq_refl))
    as (_ & Hl & Ht & Hs & _).
  exact (conj Hl (conj Ht Hs)).
Defined.

(** C3 as stated fails: the time class reported for the bubble-sort text is
    not "O(n²)". *)
Lemma bubble_sort_not_quadratic :
  estimate_time_complexity bubble_sort_input = "O(n log n)" /\
  field "time_complexity" (pipeline (PyStr.map ascii_lower) bubble_sort_input)
    <> Val "O(n²)".
Proof. split; [reflexivity | vm_compute; discriminate]. Qed.

Lemma non_code_report_witness :
  is_code "Given an array, return the maximum subarray sum." = false /\
  field "type"
    (pipeline (PyStr.map ascii_lower)
       "Given an array, return the maximum subarray sum.")
    = Val "Text / Problem Statement" /\
  field "time_complexity"
    (pipeline (PyStr.map ascii_lower)
       "Given an array, return the maximum subarray sum.")
    = Val "Paste code to estimate" /\
  field "language"
    (pipeline (PyStr.map ascii_lower)
       "Given an array, return the maximum subarray sum.")
    = Val "N/A".
Proof.
  split; [reflexivity |].
  pose proof (non_code_report (PyStr.map ascii_lower)
                "Given an array, return the maximum subarray sum." eq_refl)
    as (_ & Hty & Htc & _ & Hl & _).
  exact (conj Hty (conj Htc Hl)).
Defined.

(** ** Language and classification in the report *)

Section Interface.

Variable lower : string -> string.

(** C10, as the code has it.  "Python", "C / C++" and "Java" are detected
    on code only, "JavaScript" is not: the text "function" is JavaScript
    and is not code.  In the report the two never disagree: [index] asks
    for the language of code only, so the report of a code text carries
    the detected language and the report of any other text, "function"
    among them, carries "N/A". *)
Theorem detect_language_is_code_report :
  (forall s : string,
      detect_language s = "Python" \/ detect_language s = "C / C++" \/
      detect_language s = "Java" ->
      is_code s = true) /\
  detect_language "function" = "JavaScript" /\
  is_code "function" = false /\
  (forall s : string,
      is_code s = true ->
      field "type" (pipeline lower s) = Val "Code" /\
      field "language" (pipeline lower s) = Val (detect_language s)) /\
  (forall s : string,
      is_code s = false ->
      field "type" (pipeline lower s) = Val "Text / Problem Statement" /\
      field "language" (pipeline lower s) = Val "N/A") /\
  field "type" (pipeline lower "function") = Val "Text / Problem Statement" /\
  field "language" (pipeline lower "function") = Val "N/A".
Proof.
  destruct detect_language_marks_code as (Himp & Hjs & Hnot).
  split; [exact Himp |]. split; [exact Hjs |]. split; [exact Hnot |].
  split; [| split].
  - intros s Hs. rewrite (pipeline_code lower s Hs). split; reflexivity.
  - intros s Hs. rewrite (pipeline_text lower s Hs). split; reflexivity.
  - rewrite (pipeline_text lower "function" eq_refl). split; reflexivity.
Qed.

End Interface.

Lemma detect_language_is_code_report_witness :
  detect_language "public static void main" = "Java" /\
  is_code "public static void main" = true /\
  is_code "function f() {}" = true /\
  field "language" (pipeline (PyStr.map ascii_lower) "function f() {}")
    = Val "JavaScript" /\
  is_code "function" = false /\
  field "language" (pipeline (PyStr.map ascii_lower) "function") = Val "N/A".
Proof.
  pose proof (detect_language_is_code_report (PyStr.map ascii_lower))
    as (Himp & _ & _ & Hcode & Htext & _).
  split; [reflexivity |].
  split; [apply (Himp "public static void main"); right; right; reflexivity |].
  split; [reflexivity |].
  split; [exact (proj2 (Hcode "function f() {}" eq_refl)) |].
  split; [reflexivity |].
  exact (proj2 (Htext "function" eq_refl)).
Defined.

(** C10 as stated fails in its last clause: for the text "function" the
    report does not show the detected language "JavaScript" beside the
    classification, it shows "N/A". *)
Lemma function_text_report_has_no_language :
  detect_language "function" = "JavaScript" /\
  field "type" (pipeline (PyStr.map ascii_lower) "function")
    = Val "Text / Problem Statement" /\
  field "language" (pipeline (PyStr.map ascii_lower) "function") = Val "N/A" /\
  field "language" (pipeline (PyStr.map ascii_lower) "function")
    <> Val "JavaScript".
Proof. repeat split; try reflexivity. vm_compute. discriminate. Qed.

(** * Further properties of [app.py] *)

(** ** Texts grow, classifications stay *)

Lemma substring_app (k l s r : string) :
  substring k s -> substring k (l +:+ s +:+ r).
Proof.
  intros (a & b & ->). exists (l +:+ a), (b +:+ r).
  now rewrite !append_assoc.
Qed.

Lemma any_in_app (ks : list string) (l s r : string) :
  any_in ks s = true -> any_in ks (l +:+ s +:+ r) = true.
Proof.
  rewrite !any_in_true. intros (k & Hk & H). exists k.
  split; [exact Hk | now apply substring_app].
Qed.

Lemma detect_language_python (s : string) :
  detect_language s = "Python" <-> contains "def " s = true.
Proof.
  unfold detect_language.
  destruct (contains "def " s), (contains "#include" s),
    (contains "public static void main" s), (contains "function" s);
    split; (reflexivity || discriminate).
Qed.

(** X1. Surrounding a text with more text never takes a classification
    away: code stays code and "Python" stays "Python". *)
Theorem classification_monotone (l s r : string) :
  (is_code s = true -> is_code (l +:+ s +:+ r) = true) /\
  (detect_language s = "Python" ->
   detect_language (l +:+ s +:+ r) = "Python").
Proof.
  split.
  - apply any_in_app.
  - rewrite !detect_language_python, !contains_spec. apply substring_app.
Qed.

Lemma classification_monotone_witness :
  is_code "x;" = true /\
  is_code ("Note: " +:+ "x;" +:+ " ends the line") = true /\
  detect_language "def f" = "Python" /\
  detect_language ("function g() {} " +:+ "def f" +:+ " #include") = "Python".
Proof.
  pose proof (classification_monotone "Note: " "x;" " ends the line") as [H1 _].
  pose proof (classification_monotone "function g() {} " "def f" " #include")
    as [_ H2].
  split; [reflexivity |]. split; [exact (H1 eq_refl) |].
  split; [reflexivity | exact (H2 eq_refl)].
Defined.

(** ** The time classes, read backwards *)

Lemma sorting_spec (s : string) :
  any_in ["sort("; "sorted("] s = true <->
  substring "sort(" s \/ substring "sorted(" s.
Proof.
  unfold any_in. simpl existsb.
  now rewrite orb_false_r, orb_true_iff, !contains_spec.
Qed.

(** X2. Each time class tells which signals were present: "O(n log n)" is a
    sort call with at least one loop, "O(n²)" is two loops or more without
    a sort call, "O(n)" is exactly one loop without a sort call or no loop
    with two "def " or more, and "O(1)" is no loop with at most one "def ".
    A sort call without a loop changes nothing. *)
Theorem estimate_time_complexity_classes (s : string) :
  (estimate_time_complexity s = "O(n log n)" <->
   (substring "sort(" s \/ substring "sorted(" s) /\
   1 <= count "for" s + count "while" s) /\
  (estimate_time_complexity s = "O(n²)" <->
   ~ (substring "sort(" s \/ substring "sorted(" s) /\
   2 <= count "for" s + count "while" s) /\
  (estimate_time_complexity s = "O(n)" <->
   (count "for" s + count "while" s = 1 /\
    ~ (substring "sort(" s \/ substring "sorted(" s)) \/
   (count "for" s + count "while" s = 0 /\ 2 <= count "def " s)) /\
  (estimate_time_complexity s = "O(1)" <->
   count "for" s + count "while" s = 0 /\ count "def " s <= 1).
Proof.
  rewrite <- sorting_spec. unfold estimate_time_complexity.
  destruct (any_in ["sort("; "sorted("] s);
    destruct (count "for" s + count "while" s) as [|[|n]];
    destruct (Nat.ltb_spec 1 (count "def " s)); simpl;
    repeat split; intros; try discriminate; try lia;
    try reflexivity;
    repeat match goal with
           | H : _ /\ _ |- _ => destruct H
           | H : _ \/ _ |- _ => destruct H
           | H : ~ (true = true) |- _ => now destruct H
           end;
    try discriminate; try lia; auto.
Qed.

(** ** Compile time of the detected language *)

(** X3. The compile-time label of a text follows its language markers:
    "0 ms (interpreted)" with a "def ", else "40–150 ms" with an
    "#include", else "200–500 ms" with a "public static void main", and
    "Unknown" with none of the three, so also for "JavaScript". *)
Theorem compile_time_of_detected_language (s : string) :
  (estimate_compile_time (detect_language s) = "0 ms (interpreted)" <->
   substring "def " s) /\
  (estimate_compile_time (detect_language s) = "40–150 ms" <->
   ~ substring "def " s /\ substring "#include" s) /\
  (estimate_compile_time (detect_language s) = "200–500 ms" <->
   ~ substring "def " s /\ ~ substring "#include" s /\
   substring "public static void main" s) /\
  (estimate_compile_time (detect_language s) = "Unknown" <->
   ~ substring "def " s /\ ~ substring "#include" s /\
   ~ substring "public static void main" s).
Proof.
  rewrite <- !contains_spec. unfold detect_language.
  destruct (contains "def " s), (contains "#include" s),
    (contains "public static void main" s), (contains "function" s);
    vm_compute; intuition discriminate.
Qed.

(** ** Defaults and order of the execution-time tables *)

Lemma spec_throughput_default (language : string) :
  language <> "Java" -> language <> "C / C++" ->
  spec_throughput language = spec_throughput "Python".
Proof.
  intros H1%String.eqb_neq H2%String.eqb_neq. unfold spec_throughput.
  rewrite H1, H2. now destruct (String.eqb language "Python").
Qed.

Lemma spec_ops_default (tc : string) :
  tc <> "O(1)" -> tc <> "O(n log n)" -> tc <> "O(n²)" ->
  spec_ops tc = spec_ops "O(n)".
Proof.
  intros H1%String.eqb_neq H2%String.eqb_neq H3%String.eqb_neq.
  unfold spec_ops. rewrite H1, H2, H3. now destruct (String.eqb tc "O(n)").
Qed.

(** X4. A language other than "Java" and "C / C++" is estimated as
    "Python", and a class other than "O(1)", "O(n log n)" and "O(n²)" as
    "O(n)". *)
Theorem estimate_execution_time_defaults (tc language : string) :
  (language <> "Java" -> language <> "C / C++" ->
   estimate_execution_time tc language =
   estimate_execution_time tc "Python") /\
  (tc <> "O(1)" -> tc <> "O(n log n)" -> tc <> "O(n²)" ->
   estimate_execution_time tc language =
   estimate_execution_time "O(n)" language).
Proof.
  rewrite !estimate_execution_time_float. split.
  - intros H1 H2. now rewrite (spec_throughput_default language H1 H2).
  - intros H1 H2 H3. now rewrite (spec_ops_default tc H1 H2 H3).
Qed.

Lemma estimate_execution_time_defaults_witness :
  estimate_execution_time "O(n²)" "JavaScript" =
    estimate_execution_time "O(n²)" "Python" /\
  estimate_execution_time "O(log n)" "Java" =
    estimate_execution_time "O(n)" "Java".
Proof.
  split.
  - apply (proj1 (estimate_execution_time_defaults "O(n²)" "JavaScript"));
      discriminate.
  - apply (proj2 (estimate_execution_time_defaults "O(log n)" "Java"));
      discriminate.
Defined.

Local Open Scope Z_scope.

(** X5. For every class the three printed estimates, read back digit by
    digit as two-decimal numerals, are not negative and do not grow from
    "Python" to "Java" to "C / C++". *)
Theorem estimate_execution_time_language_order (tc : string) :
  exists (text_c text_j text_p : string) (c j p : Z),
    estimate_execution_time tc "C / C++" = Val (text_c +:+ " ms (n = 10⁵)") /\
    estimate_execution_time tc "Java" = Val (text_j +:+ " ms (n = 10⁵)") /\
    estimate_execution_time tc "Python" = Val (text_p +:+ " ms (n = 10⁵)") /\
    read_decimal2 text_c = Some c /\
    read_decimal2 text_j = Some j /\
    read_decimal2 text_p = Some p /\
    0 <= c <= j /\ j <= p.
Proof.
  exists (fixed2 (round_half_even (100 * spec_ops tc) 30000000)),
    (fixed2 (round_half_even (100 * spec_ops tc) 15000000)),
    (fixed2 (round_half_even (100 * spec_ops tc) 5000000)),
    (round_half_even (100 * spec_ops tc) 30000000),
    (round_half_even (100 * spec_ops tc) 15000000),
    (round_half_even (100 * spec_ops tc) 5000000).
  rewrite !estimate_execution_time_text.
  repeat (split; [reflexivity |]).
  destruct (spec_ops_cases tc) as [E | [E | [E | E]]]; rewrite E;
    vm_compute; repeat split; try reflexivity; discriminate.
Qed.

Local Close Scope Z_scope.

(** ** The request handler and its report *)

Lemma map_app (f : ascii -> ascii) (a b : string) :
  PyStr.map f (a +:+ b) = PyStr.map f a +:+ PyStr.map f b.
Proof.
  induction a as [|c a IH]; [reflexivity |].
  rewrite append_cons. simpl. now rewrite append_cons, IH.
Qed.

Lemma isascii_app (a b : string) :
  isascii (a +:+ b) = isascii a && isascii b.
Proof.
  induction a as [|c a IH]; [reflexivity |].
  rewrite append_cons. simpl. now rewrite IH, andb_assoc.
Qed.

Lemma speed_class_of_estimate (s : string) :
  (estimate_time_complexity s = "O(1)" /\
   speed_class (estimate_time_complexity s) = "Very Fast ⚡") \/
  (estimate_time_complexity s = "O(n)" /\
   speed_class (estimate_time_complexity s) = "Fast") \/
  (estimate_time_complexity s = "O(n log n)" /\
   speed_class (estimate_time_complexity s) = "Risky ⚠️") \/
  (estimate_time_complexity s = "O(n²)" /\
   speed_class (estimate_time_complexity s) = "Slow 🐢").
Proof.
  pose proof (estimate_time_complexity_range s) as H. simpl in H.
  destruct H as [H | [H | [H | [H | []]]]]; rewrite <- H; auto 10.
Qed.

Section Report.

Variable lower : string -> string.
Hypothesis lower_ascii :
  forall s, isascii s = true -> lower s = PyStr.map ascii_lower s.

(** X6. [index] gives no report to a request that is not a POST, fails
    with the bad-request key error on a POST without the "code" field, and
    otherwise depends on nothing but that field. *)
Theorem index_request_handling (req : request) :
  (method req <> "POST" -> index lower req = Val None) /\
  (method req = "POST" -> form req !! "code" = None ->
   index lower req = Exc (BadRequestKeyError "code")) /\
  (forall s : string,
      method req = "POST" -> form req !! "code" = Some s ->
      index lower req = pipeline lower s).
Proof.
  repeat split.
  - intros H%String.eqb_neq. unfold index. now rewrite H.
  - intros Hm Hf. unfold index. now rewrite Hm, Hf.
  - intros s Hm Hf. unfold pipeline, index. cbn [method form].
    now rewrite Hm, Hf, lookup_singleton_eq.
Qed.

(** X7. A posted text always gets a report, never an exception, and the
    report has exactly the eleven keys. *)
Theorem pipeline_always_reports (s : string) :
  exists d : gmap string string,
    pipeline lower s = Val (Some d) /\
    dom d = {[ "type"; "language"; "time_complexity"; "space_complexity";
               "compile_time"; "execution_time"; "speed";
               "leetcode_runtime"; "codeforces_runtime";
               "hackerrank_runtime"; "note" ]}.
Proof.
  destruct (is_code s) eqn:Hs;
    [rewrite (pipeline_code lower s Hs) | rewrite (pipeline_text lower s Hs)];
    eexists; (split; [reflexivity |]);
    rewrite !dom_insert_L, dom_singleton_L; set_solver.
Qed.

(** X8. The type of the report tells the classification: "Code" exactly
    for the texts [is_code] accepts, "Text / Problem Statement" exactly
    for the others. *)
Theorem report_type_iff_code (s : string) :
  (field "type" (pipeline lower s) = Val "Code" <-> is_code s = true) /\
  (field "type" (pipeline lower s) = Val "Text / Problem Statement" <->
   is_code s = false).
Proof.
  destruct (is_code s) eqn:Hs;
    [rewrite (pipeline_code lower s Hs) | rewrite (pipeline_text lower s Hs)];
    vm_compute; intuition discriminate.
Qed.

(** X9. In the report of a code text the three platform runtimes and the
    execution time are one and the same string, the estimate for the
    reported time class and language. *)
Theorem code_report_runtimes_agree (s : string) :
  is_code s = true ->
  exists tc language time : string,
    field "time_complexity" (pipeline lower s) = Val tc /\
    field "language" (pipeline lower s) = Val language /\
    estimate_execution_time tc language = Val time /\
    field "execution_time" (pipeline lower s) = Val time /\
    field "leetcode_runtime" (pipeline lower s) = Val time /\
    field "codeforces_runtime" (pipeline lower s) = Val time /\
    field "hackerrank_runtime" (pipeline lower s) = Val time.
Proof.
  intros Hs. rewrite (pipeline_code lower s Hs).
  exists (estimate_time_complexity s), (detect_language s),
    (spec_execution_time (estimate_time_complexity s) (detect_language s)).
  rewrite estimate_execution_time_text. repeat split.
Qed.

(** X10. In the report of a code text the speed is the label of the
    reported time class: "Very Fast ⚡" goes with "O(1)", "Fast" with
    "O(n)", "Risky ⚠️" with "O(n log n)" and "Slow 🐢" with "O(n²)"; no
    other pair occurs. *)
Theorem code_report_speed_follows_time (s : string) :
  is_code s = true ->
  exists tc speed : string,
    field "time_complexity" (pipeline lower s) = Val tc /\
    field "speed" (pipeline lower s) = Val speed /\
    ((tc = "O(1)" /\ speed = "Very Fast ⚡") \/
     (tc = "O(n)" /\ speed = "Fast") \/
     (tc = "O(n log n)" /\ speed = "Risky ⚠️") \/
     (tc = "O(n²)" /\ speed = "Slow 🐢")).
Proof.
  intros Hs. rewrite (pipeline_code lower s Hs).
  exists (estimate_time_complexity s), (speed_class (estimate_time_complexity s)).
  split; [reflexivity |]. split; [reflexivity |].
  apply speed_class_of_estimate.
Qed.

(** X11. On ASCII text the space class "O(n)" survives any ASCII text put
    around it. *)
Theorem estimate_space_complexity_monotone (l s r : string) :
  isascii l = true -> isascii s = true -> isascii r = true ->
  estimate_space_complexity lower s = "O(n)" ->
  estimate_space_complexity lower (l +:+ s +:+ r) = "O(n)".
Proof.
  intros Hl Hs Hr. unfold estimate_space_complexity.
  rewrite (lower_ascii s Hs), lower_ascii
    by now rewrite !isascii_app, Hl, Hs, Hr.
  rewrite !map_app.
  destruct (any_in _ (PyStr.map ascii_lower s)) eqn:H; [| discriminate].
  intros _. now rewrite (any_in_app _ _ _ _ H).
Qed.

End Report.

Lemma index_request_handling_witness :
  index (PyStr.map ascii_lower)
    {| method := "GET"; form := {[ "code" := "x;" ]} |} = Val None /\
  index (PyStr.map ascii_lower)
    {| method := "POST"; form := {[ "text" := "x;" ]} |}
    = Exc (BadRequestKeyError "code") /\
  index (PyStr.map ascii_lower)
    {| method := "POST"; form := {[ "code" := "x;"; "lang" := "C" ]} |}
    = pipeline (PyStr.map ascii_lower) "x;".
Proof.
  split; [| split].
  - apply (proj1 (index_request_handling (PyStr.map ascii_lower)
                    {| method := "GET"; form := {[ "code" := "x;" ]} |})).
    discriminate.
  - apply (proj1 (proj2 (index_request_handling (PyStr.map ascii_lower)
                    {| method := "POST"; form := {[ "text" := "x;" ]} |})));
      reflexivity.
  - apply (proj2 (proj2 (index_request_handling (PyStr.map ascii_lower)
             {| method := "POST";
                form := {[ "code" := "x;"; "lang" := "C" ]} |})));
      reflexivity.
Defined.

Lemma code_report_runtimes_agree_witness :
  is_code "while (i < n) { i++; }" = true /\
  exists tc language time : string,
    field "time_complexity"
      (pipeline (PyStr.map ascii_lower) "while (i < n) { i++; }") = Val tc /\
    field "language"
      (pipeline (PyStr.map ascii_lower) "while (i < n) { i++; }") = Val language /\
    estimate_execution_time tc language = Val time /\
    field "execution_time"
      (pipeline (PyStr.map ascii_lower) "while (i < n) { i++; }") = Val time /\
    field "leetcode_runtime"
      (pipeline (PyStr.map ascii_lower) "while (i < n) { i++; }") = Val time /\
    field "codeforces_runtime"
      (pipeline (PyStr.map ascii_lower) "while (i < n) { i++; }") = Val time /\
    field "hackerrank_runtime"
      (pipeline (PyStr.map ascii_lower) "while (i < n) { i++; }") = Val time.
Proof.
  split; [reflexivity |].
  apply (code_report_runtimes_agree (PyStr.map ascii_lower)
           "while (i < n) { i++; }" eq_refl).
Defined.

Lemma code_report_speed_follows_time_witness :
  is_code "for (;;) { for (;;) { } }" = true /\
  exists tc speed : string,
    field "time_complexity"
      (pipeline (PyStr.map ascii_lower) "for (;;) { for (;;) { } }") = Val tc /\
    field "speed"
      (pipeline (PyStr.map ascii_lower) "for (;;) { for (;;) { } }") = Val speed /\
    ((tc = "O(1)" /\ speed = "Very Fast ⚡") \/
     (tc = "O(n)" /\ speed = "Fast") \/
     (tc = "O(n log n)" /\ speed = "Risky ⚠️") \/
     (tc = "O(n²)" /\ speed = "Slow 🐢")).
Proof.
  split; [reflexivity |].
  apply (code_report_speed_follows_time (PyStr.map ascii_lower)
           "for (;;) { for (;;) { } }" eq_refl).
Defined.

Lemma estimate_space_complexity_monotone_witness :
  (forall s, isascii s = true ->
             PyStr.map ascii_lower s = PyStr.map ascii_lower s) /\
  isascii "xs = " = true /\ isascii "List()" = true /\ isascii "; n = 0" = true /\
  estimate_space_complexity (PyStr.map ascii_lower) "List()" = "O(n)" /\
  estimate_space_complexity (PyStr.map ascii_lower)
    ("xs = " +:+ "List()" +:+ "; n = 0") = "O(n)".
Proof.
  split; [reflexivity |]. repeat (split; [reflexivity |]).
  apply (estimate_space_complexity_monotone (PyStr.map ascii_lower)
           (fun s _ => eq_refl) "xs = " "List()" "; n = 0");
    reflexivity.
Defined.
